(** * tui.chart: the coordinate scale calculator

    A shallow embedding of [src/js/models/scaleData/coordinateScaleCalculator.js]
    and the properties of its specification.

    Numbers.  A JavaScript number is embedded as a value of [num]: a finite
    value carried by an exact rational, the negative zero, the two infinities
    and NaN.  Arithmetic on finite values is exact: the rounding of IEEE 754
    binary64 (and its overflow and underflow) is not part of the model, so the
    theorems below speak about the algorithm in exact arithmetic.  Everything
    else of the number semantics the source relies on is kept: division by
    zero yields an infinity or NaN, NaN compares false with everything, the
    zeros are signed, [!x] and [a || b] use truthiness.

    [Math.log(x) / Math.LN10] is irrational for almost every rational [x]; the
    source only ever takes [Math.floor] of it, so the composition
    [Math.floor(Math.log(x) / Math.LN10)] is embedded as one exact function. *)

From Stdlib Require Import String.
From Stdlib Require Import QArith Qround Qabs Qpower Qminmax ZArith List Bool.
From Stdlib Require Import Lia Lqa.
Import ListNotations.

Local Open Scope Q_scope.

(** ** JavaScript numbers *)

Inductive num : Type :=
| Fin (q : Q)      (* a finite value; [Fin q] with [q == 0] is +0 *)
| NegZero          (* -0 *)
| PInf             (* +Infinity *)
| NInf             (* -Infinity *)
| NaN.

Definition Qlt_bool (a b : Q) : bool := negb (Qle_bool b a).

Definition isNaN (x : num) : bool :=
  match x with NaN => true | _ => false end.

Definition isInf (x : num) : bool :=
  match x with PInf | NInf => true | _ => false end.

(** [isFinite(x)] *)
Definition isFinite (x : num) : bool :=
  match x with Fin _ | NegZero => true | _ => false end.

(** [x === 0]; both zeros are strictly equal to [0]. *)
Definition isZero (x : num) : bool :=
  match x with Fin q => Qeq_bool q 0 | NegZero => true | _ => false end.

Definition signBit (x : num) : bool :=
  match x with
  | Fin q => Qlt_bool q 0
  | NegZero | NInf => true
  | PInf | NaN => false
  end.

(** The rational value of a finite number (0 elsewhere). *)
Definition val (x : num) : Q :=
  match x with Fin q => q | _ => 0 end.

Definition inf (s : bool) : num := if s then NInf else PInf.
Definition zero (s : bool) : num := if s then NegZero else Fin 0.

(** A finite result [q] whose sign, should it be a zero, is [s]. *)
Definition signedFin (s : bool) (q : Q) : num :=
  if Qeq_bool q 0 then zero s else Fin q.

(** [-x] *)
Definition js_neg (x : num) : num :=
  match x with
  | Fin q => if Qeq_bool q 0 then NegZero else Fin (- q)
  | NegZero => Fin 0
  | PInf => NInf
  | NInf => PInf
  | NaN => NaN
  end.

(** [a + b] *)
Definition js_add (a b : num) : num :=
  match a, b with
  | NaN, _ | _, NaN => NaN
  | PInf, NInf | NInf, PInf => NaN
  | PInf, _ | _, PInf => PInf
  | NInf, _ | _, NInf => NInf
  | NegZero, NegZero => NegZero
  | _, _ => Fin (val a + val b)
  end.

(** [a - b] *)
Definition js_sub (a b : num) : num := js_add a (js_neg b).

(** [a * b] *)
Definition js_mul (a b : num) : num :=
  let s := xorb (signBit a) (signBit b) in
  if isNaN a || isNaN b then NaN
  else if isInf a || isInf b then
         (if isZero a || isZero b then NaN else inf s)
  else signedFin s (val a * val b).

(** [a / b] *)
Definition js_div (a b : num) : num :=
  let s := xorb (signBit a) (signBit b) in
  if isNaN a || isNaN b then NaN
  else if isInf a then (if isInf b then NaN else inf s)
  else if isInf b then zero s
  else if isZero b then (if isZero a then NaN else inf s)
  else signedFin s (val a / val b).

(** [a < b] *)
Definition js_lt (a b : num) : bool :=
  match a, b with
  | NaN, _ | _, NaN => false
  | PInf, _ => false
  | _, PInf => true
  | _, NInf => false
  | NInf, _ => true
  | _, _ => Qlt_bool (val a) (val b)
  end.

(** [a <= b] *)
Definition js_le (a b : num) : bool :=
  match a, b with
  | NaN, _ | _, NaN => false
  | _, PInf => true
  | PInf, _ => false
  | NInf, _ => true
  | _, NInf => false
  | _, _ => Qle_bool (val a) (val b)
  end.

(** [a > b] and [a >= b] *)
Definition js_gt (a b : num) : bool := js_lt b a.
Definition js_ge (a b : num) : bool := js_le b a.

(** [a === b] *)
Definition js_eq (a b : num) : bool :=
  match a, b with
  | NaN, _ | _, NaN => false
  | PInf, PInf | NInf, NInf => true
  | PInf, _ | _, PInf | NInf, _ | _, NInf => false
  | _, _ => Qeq_bool (val a) (val b)
  end.

(** Truthiness of a number: [0], [-0] and [NaN] are falsy. *)
Definition js_falsy (x : num) : bool := isZero x || isNaN x.

(** A property or variable that may be [undefined] is an [option num]. *)

(** [!v] *)
Definition js_not (v : option num) : bool :=
  match v with None => true | Some x => js_falsy x end.

(** [v || d] where [d] is a number. *)
Definition js_or (v : option num) (d : num) : num :=
  match v with
  | None => d
  | Some x => if js_falsy x then d else x
  end.

(** ToNumber: [undefined] becomes [NaN] in arithmetic and comparisons. *)
Definition toNumber (v : option num) : num :=
  match v with None => NaN | Some x => x end.

(** [tui.util.isNumber] (tui-code-snippet): true exactly for values of type
    number, NaN and the infinities included. *)
Definition isNumber (v : option num) : bool :=
  match v with None => false | Some _ => true end.

(** ** The [Math] functions the source uses *)

Definition Math_abs (x : num) : num :=
  match x with
  | Fin q => Fin (Qabs q)
  | NegZero => Fin 0
  | PInf | NInf => PInf
  | NaN => NaN
  end.

Definition Math_floor (x : num) : num :=
  match x with
  | Fin q => Fin (inject_Z (Qfloor q))
  | _ => x
  end.

(** [Math.ceil] of a value in (-1, 0) is -0. *)
Definition Math_ceil (x : num) : num :=
  match x with
  | Fin q =>
      let z := Qceiling q in
      if (z =? 0)%Z && Qlt_bool q 0 then NegZero else Fin (inject_Z z)
  | _ => x
  end.

(** [Math.min(a, b)]; -0 is smaller than +0. *)
Definition Math_min (a b : num) : num :=
  if isNaN a || isNaN b then NaN
  else if js_lt a b then a
  else if js_lt b a then b
  else if signBit a then a else b.

(** The integer [k] with [10^k <= q < 10^(k+1)], for [0 < q]: repeated
    division (or multiplication) by ten. *)
Fixpoint log10_up (fuel : nat) (q : Q) (k : Z) : Z :=
  match fuel with
  | O => k
  | S f => if Qlt_bool q 10 then k else log10_up f (q / 10) (k + 1)
  end.

Fixpoint log10_down (fuel : nat) (q : Q) (k : Z) : Z :=
  match fuel with
  | O => k
  | S f => if Qle_bool 1 (q * 10) then (k - 1)%Z
           else log10_down f (q * 10) (k - 1)
  end.

Definition Qfloor_log10 (q : Q) : Z :=
  if Qle_bool 1 q
  then log10_up (Pos.size_nat (Z.to_pos (Qnum q))) q 0
  else log10_down (Pos.size_nat (Qden q)) q 0.

(** [2^n]; bounds the fuel of the two searches. *)
Fixpoint pow2Z (n : nat) : Z :=
  match n with
  | O => 1
  | S n' => 2 * pow2Z n'
  end.

(** [Math.floor(Math.log(x) / Math.LN10)] *)
Definition Math_floor_log10 (x : num) : num :=
  match x with
  | Fin q =>
      if Qlt_bool 0 q then Fin (inject_Z (Qfloor_log10 q))
      else if Qeq_bool q 0 then NInf
      else NaN
  | NegZero => NInf
  | PInf => PInf
  | NInf => NaN
  | NaN => NaN
  end.

(** [Math.pow(10, x)] for an [x] that [Math.floor] returned (an integer, an
    infinity or NaN). *)
Definition Math_pow10 (x : num) : num :=
  match x with
  | Fin q => Fin (10 ^ Qfloor q)
  | NegZero => Fin 1
  | PInf => PInf
  | NInf => Fin 0
  | NaN => NaN
  end.

(** ** Data *)

Module Limit.
Record t : Type := mk { min : num; max : num }.
End Limit.

Module Scale.
Record t : Type := mk { limit : Limit.t; step : num; stepCount : num }.
End Scale.

(** The [options] object; [stepCount] and [minimumStepSize] are optional. *)
Module Options.
Record t : Type := mk {
    min : num;
    max : num;
    offsetSize : num;
    stepCount : option num;
    minimumStepSize : option num
  }.
End Options.

(** ** The calculator *)

Definition SNAP_VALUES : list num := [Fin 1; Fin 2; Fin 5; Fin 10].

Definition DEFAULT_PIXELS_PER_STEP : num := Fin 88.

(** [getDigits]: the variable [logNumberDividedLN10] is only ever passed to
    [Math.floor], so it is carried already floored. *)
Definition getDigits (number : num) : num :=
  let flooredLogNumberDividedLN10 :=
    if isZero number then Math_floor (Fin 1)
    else Math_floor_log10 (Math_abs number) in
  Math_pow10 flooredLogNumberDividedLN10.

(** The [for] loop of [getSnappedNumber]; [n] is the number of iterations
    left, [t - i].  A [snapNumber] still [undefined] is carried as [NaN],
    which is what every use of the returned value turns it into. *)
Fixpoint getSnappedNumber_loop (n i : nat) (number snapNumber : num) : num :=
  match n with
  | O => snapNumber
  | S n' =>
      let snapNumber := toNumber (nth_error SNAP_VALUES i) in
      let guideValue :=
        js_div (js_add snapNumber
                       (js_or (nth_error SNAP_VALUES (i + 1)) snapNumber))
               (Fin 2) in
      if js_le number guideValue then snapNumber
      else getSnappedNumber_loop n' (i + 1) number snapNumber
  end.

Definition getSnappedNumber (number : num) : num :=
  let t := length SNAP_VALUES in
  getSnappedNumber_loop t 0 number NaN.

Definition getNormalizedStep (step : num) : num :=
  let placeNumber := getDigits step in
  let simplifiedStepValue := js_div step placeNumber in
  js_mul (getSnappedNumber simplifiedStepValue) placeNumber.

Definition getNormalizedLimit (min max step : num) : Limit.t :=
  let placeNumber := js_div (Fin 1) (Math_min (getDigits max) (getDigits step)) in
  let fixedStep := js_mul step placeNumber in
  let max' :=
    js_div (js_mul (Math_ceil (js_div (js_mul max placeNumber) fixedStep))
                   fixedStep)
           placeNumber in
  let min' :=
    if js_gt min step then
      js_div (js_mul (Math_floor (js_div (js_mul min placeNumber) fixedStep))
                     fixedStep)
             placeNumber
    else if js_lt min (Fin 0) then
      js_div (js_neg
                (js_mul (Math_ceil (js_div (js_mul (Math_abs min) placeNumber)
                                           fixedStep))
                        fixedStep))
             placeNumber
    else Fin 0 in
  Limit.mk min' max'.

Definition getNormalizedStepCount (limitSize step : num) : num :=
  let multiplier :=
    js_div (Fin 1) (Math_min (getDigits limitSize) (getDigits step)) in
  js_div (js_mul limitSize multiplier) (js_mul step multiplier).

Definition getNormalizedScale (scale : Scale.t) : Scale.t :=
  let step := getNormalizedStep (Scale.step scale) in
  let edge :=
    getNormalizedLimit (Limit.min (Scale.limit scale))
                       (Limit.max (Scale.limit scale)) step in
  let limitSize := Math_abs (js_sub (Limit.max edge) (Limit.min edge)) in
  let stepCount := getNormalizedStepCount limitSize step in
  Scale.mk (Limit.mk (Limit.min edge) (Limit.max edge)) step stepCount.

(** [getRoughScale]: [clamp] is the condition of the second [if], whose
    body assigns both [step] and [stepCount]. *)
Definition getRoughScale (min max offsetSize : num)
           (stepCount minimumStepSize : option num) : Scale.t :=
  let limitSize := Math_abs (js_sub max min) in
  let valuePerPixel := js_div limitSize offsetSize in
  let stepCount :=
    if js_not stepCount
    then Math_ceil (js_div offsetSize DEFAULT_PIXELS_PER_STEP)
    else toNumber stepCount in
  let pixelsPerStep := js_div offsetSize stepCount in
  let step := js_mul valuePerPixel pixelsPerStep in
  let clamp := isNumber minimumStepSize && js_lt step (toNumber minimumStepSize) in
  let step' := if clamp then toNumber minimumStepSize else step in
  let stepCount' := if clamp then js_div limitSize step' else stepCount in
  Scale.mk (Limit.mk min max) step' stepCount'.

Definition coordinateScaleCalculator (options : Options.t) : Scale.t :=
  let min := Options.min options in
  let max := Options.max options in
  let offsetSize := Options.offsetSize options in
  let stepCount := Options.stepCount options in
  let minimumStepSize := Options.minimumStepSize options in
  let scale := getRoughScale min max offsetSize stepCount minimumStepSize in
  getNormalizedScale scale.

(** ** Specification-side definitions *)

(** The snap table as a function of a rational: the midpoints of
    neighbouring reference values are 3/2, 7/2 and 15/2. *)
Definition snapQ (v : Q) : Q :=
  if Qle_bool v (3 # 2) then 1
  else if Qle_bool v (7 # 2) then 2
  else if Qle_bool v (15 # 2) then 5
  else 10.




(** ** Reading a finite number as a rational *)

(** [repr a x]: the number [a] is finite and its value is [x]; both zeros
    have the value 0. *)
Definition repr (a : num) (x : Q) : Prop :=
  isFinite a = true /\ val a == x.

Notation "a '~~' x" := (repr a x) (at level 70, no associativity).



(** How a call ends: with a returned value or with a raised error. *)
Inductive completion (A : Type) : Type :=
| Normal (value : A)
| Throw (message : string).

Arguments Normal {A} value.
Arguments Throw {A} message.

(** A call of [coordinateScaleCalculator].  The source has no [throw], no
    validation of its arguments, and applies to the fields of [options] only
    arithmetic, comparisons and [Math] functions, none of which raises on
    numbers: every call completes normally. *)
Definition call_coordinateScaleCalculator (options : Options.t)
  : completion Scale.t :=
  Normal (coordinateScaleCalculator options).



(** A request with the three mandatory fields only. *)
Definition request (min max offsetSize : Q) : Options.t :=
  Options.mk (Fin min) (Fin max) (Fin offsetSize) None None.

Lemma Qlt_bool_iff (a b : Q) : Qlt_bool a b = true <-> a < b.
Proof.
  unfold Qlt_bool. rewrite negb_true_iff.
  destruct (Qle_bool b a) eqn:E.
  - apply Qle_bool_iff in E. split; [discriminate | intro H; exfalso; lra].
  - split; [intros _ | reflexivity].
    destruct (Qlt_le_dec a b) as [H | H]; [exact H |].
    apply Qle_bool_iff in H. congruence.
Qed.

Lemma Qlt_bool_false (a b : Q) : Qlt_bool a b = false <-> b <= a.
Proof.
  unfold Qlt_bool. rewrite negb_false_iff. apply Qle_bool_iff.
Qed.

Lemma Qle_bool_false (a b : Q) : Qle_bool a b = false <-> b < a.
Proof.
  rewrite <- Qlt_bool_iff. unfold Qlt_bool.
  destruct (Qle_bool a b); simpl; split; congruence.
Qed.


Lemma repr_Fin (q : Q) : Fin q ~~ q.
Proof. split; [reflexivity | apply Qeq_refl]. Qed.

Lemma repr_Fin_iff (q x : Q) : Fin q ~~ x <-> q == x.
Proof. unfold repr; simpl. tauto. Qed.

Lemma repr_eq (a : num) (x y : Q) : a ~~ x -> x == y -> a ~~ y.
Proof. intros [F V] E. split; [exact F | now rewrite V]. Qed.









Lemma repr_neg (a : num) (x : Q) : a ~~ x -> js_neg a ~~ - x.
Proof.
  intros [F V]. destruct a; simpl in *; try discriminate.
  - destruct (Qeq_bool q 0) eqn:E.
    + apply Qeq_bool_iff in E. split; [reflexivity | simpl; lra].
    + apply repr_Fin_iff. lra.
  - apply repr_Fin_iff. lra.
Qed.

Lemma repr_add (a b : num) (x y : Q) :
  a ~~ x -> b ~~ y -> js_add a b ~~ x + y.
Proof.
  intros [Fa Va] [Fb Vb].
  destruct a, b; simpl in *; try discriminate;
    (split; [reflexivity | simpl; lra]).
Qed.

Lemma repr_sub (a b : num) (x y : Q) :
  a ~~ x -> b ~~ y -> js_sub a b ~~ x - y.
Proof.
  intros Ha Hb. unfold js_sub.
  apply repr_eq with (x + - y); [| lra].
  apply repr_add; [exact Ha | now apply repr_neg].
Qed.



Lemma repr_abs (a : num) (x : Q) : a ~~ x -> Math_abs a ~~ Qabs x.
Proof.
  intros [F V]. destruct a; simpl in *; try discriminate.
  - apply repr_Fin_iff. now rewrite V.
  - apply repr_Fin_iff. now rewrite <- V.
Qed.




Lemma repr_le (a b : num) (x y : Q) :
  a ~~ x -> b ~~ y -> (js_le a b = true <-> x <= y).
Proof.
  intros [Fa Va] [Fb Vb].
  assert (E : js_le a b = Qle_bool (val a) (val b))
    by (destruct a, b; simpl in *; try discriminate; reflexivity).
  rewrite E, Qle_bool_iff, Va, Vb. tauto.
Qed.


Lemma repr_le_false (a b : num) (x y : Q) :
  a ~~ x -> b ~~ y -> (js_le a b = false <-> y < x).
Proof.
  intros Ha Hb. pose proof (repr_le a b x y Ha Hb) as H.
  destruct (js_le a b); split; intro K; try reflexivity; try discriminate.
  - exfalso. assert (x <= y) by now apply H. lra.
  - destruct (Qlt_le_dec y x) as [L | L]; [exact L |].
    apply H in L. discriminate.
Qed.



(** ** Powers of ten and the floored logarithm *)


Lemma pow10_succ (k : Z) : 10 ^ (k + 1) == 10 * 10 ^ k.
Proof.
  rewrite Qpower_plus by discriminate.
  rewrite Qpower_1_r. ring.
Qed.


Lemma pow2Z_pos (n : nat) : (0 < pow2Z n)%Z.
Proof. induction n; cbn [pow2Z]; lia. Qed.

Lemma size_nat_bound (p : positive) : (Zpos p < pow2Z (Pos.size_nat p))%Z.
Proof.
  induction p; cbn [Pos.size_nat pow2Z]; lia.
Qed.

Lemma log10_up_spec (fuel : nat) :
  forall (q : Q) (k : Z),
    1 <= q -> q < inject_Z (pow2Z fuel) ->
    10 ^ (log10_up fuel q k - k) <= q < 10 ^ (log10_up fuel q k - k + 1).
Proof.
  induction fuel as [| f IH]; intros q k H1 Hb.
  - simpl in Hb. exfalso. change (inject_Z 1) with 1 in Hb. lra.
  - cbn [log10_up]. destruct (Qlt_bool q 10) eqn:E.
    + apply Qlt_bool_iff in E.
      replace (k - k)%Z with 0%Z by lia.
      change (10 ^ 0) with 1. change (10 ^ (0 + 1)) with 10. lra.
    + apply Qlt_bool_false in E.
      cbn [pow2Z] in Hb. rewrite inject_Z_mult in Hb.
      change (inject_Z 2) with 2 in Hb.
      assert (Hq : 1 <= q / 10) by (apply Qle_shift_div_l; lra).
      assert (Hb' : q / 10 < inject_Z (pow2Z f)).
      { apply Qlt_shift_div_r; [reflexivity |].
        assert (0 < inject_Z (pow2Z f)).
        { change 0 with (inject_Z 0). rewrite <- Zlt_Qlt. apply pow2Z_pos. }
        lra. }
      specialize (IH (q / 10) (k + 1)%Z Hq Hb').
      set (r := log10_up f (q / 10) (k + 1)) in *.
      replace (r - k)%Z with ((r - (k + 1)) + 1)%Z by lia.
      rewrite !pow10_succ. rewrite pow10_succ in IH.
      destruct IH as [IH1 IH2].
      assert (Hd : q == 10 * (q / 10)) by (field).
      split.
      * rewrite Hd. lra.
      * rewrite Hd at 1. lra.
Qed.

Lemma log10_down_spec (fuel : nat) :
  forall (q : Q) (k : Z),
    0 < q -> q < 1 -> 1 <= q * inject_Z (pow2Z fuel) ->
    10 ^ (log10_down fuel q k - k) <= q < 10 ^ (log10_down fuel q k - k + 1).
Proof.
  induction fuel as [| f IH]; intros q k H0 H1 Hb.
  - simpl in Hb. exfalso. change (inject_Z 1) with 1 in Hb. lra.
  - cbn [log10_down]. destruct (Qle_bool 1 (q * 10)) eqn:E.
    + apply Qle_bool_iff in E.
      replace (k - 1 - k)%Z with (-1)%Z by lia.
      change (10 ^ (-1 + 1)) with 1.
      assert (H10 : 10 ^ (-1) == 1 # 10) by reflexivity.
      rewrite H10. lra.
    + apply Qle_bool_false in E.
      cbn [pow2Z] in Hb. rewrite inject_Z_mult in Hb.
      change (inject_Z 2) with 2 in Hb.
      assert (Hq : 0 < q * 10) by lra.
      assert (Hb' : 1 <= q * 10 * inject_Z (pow2Z f)).
      { assert (K : q * 10 * inject_Z (pow2Z f)
                    == 5 * (q * (2 * inject_Z (pow2Z f)))) by ring.
        rewrite K. lra. }
      specialize (IH (q * 10) (k - 1)%Z Hq E Hb').
      set (r := log10_down f (q * 10) (k - 1)) in *.
      replace (r - (k - 1))%Z with ((r - k) + 1)%Z in IH by lia.
      rewrite !pow10_succ in IH. rewrite pow10_succ.
      destruct IH as [IH1 IH2]. lra.
Qed.

Lemma Qfloor_log10_spec (q : Q) :
  0 < q -> 10 ^ Qfloor_log10 q <= q < 10 ^ (Qfloor_log10 q + 1).
Proof.
  intro Hq. unfold Qfloor_log10.
  destruct q as [n d].
  assert (Hn : (0 < n)%Z).
  { unfold Qlt in Hq. simpl in Hq. lia. }
  destruct (Qle_bool 1 (n # d)) eqn:E.
  - apply Qle_bool_iff in E.
    pose proof (log10_up_spec (Pos.size_nat (Z.to_pos n)) (n # d) 0 E) as S.
    rewrite Z.sub_0_r in S. apply S.
    apply Qle_lt_trans with (inject_Z n).
    + unfold Qle. simpl. nia.
    + rewrite <- Zlt_Qlt.
      pose proof (size_nat_bound (Z.to_pos n)) as B.
      rewrite Z2Pos.id in B by exact Hn. exact B.
  - apply Qle_bool_false in E.
    pose proof (log10_down_spec (Pos.size_nat d) (n # d) 0 Hq E) as S.
    rewrite Z.sub_0_r in S. apply S.
    pose proof (size_nat_bound d) as B.
    unfold Qle, Qmult, inject_Z. simpl. nia.
Qed.


(** ** [getDigits] *)

Lemma repr_le_bool (a b : num) (x y : Q) :
  a ~~ x -> b ~~ y -> js_le a b = Qle_bool x y.
Proof.
  intros Ha Hb. pose proof (repr_le a b x y Ha Hb) as H.
  rewrite <- Qle_bool_iff in H.
  destruct (js_le a b), (Qle_bool x y); try reflexivity.
  - symmetry. now apply H.
  - now apply H.
Qed.




(** ** [getSnappedNumber] *)

Lemma getSnappedNumber_unfold (v : num) :
  getSnappedNumber v =
  if js_le v (Fin (3 # 2)) then Fin 1
  else if js_le v (Fin (7 # 2)) then Fin 2
  else if js_le v (Fin (15 # 2)) then Fin 5
  else Fin 10.
Proof.
  unfold getSnappedNumber. lazy -[js_le].
  destruct (js_le v (Fin (3 # 2))); [reflexivity |].
  destruct (js_le v (Fin (7 # 2))); [reflexivity |].
  destruct (js_le v (Fin (15 # 2))); [reflexivity |].
  destruct (js_le v (Fin (20 # 2))); reflexivity.
Qed.

Lemma getSnappedNumber_repr (v : num) (y : Q) :
  v ~~ y -> getSnappedNumber v = Fin (snapQ y).
Proof.
  intro Hv. rewrite getSnappedNumber_unfold. unfold snapQ.
  rewrite !(repr_le_bool v _ y _ Hv (repr_Fin _)).
  destruct (Qle_bool y (3 # 2)); [reflexivity |].
  destruct (Qle_bool y (7 # 2)); [reflexivity |].
  destruct (Qle_bool y (15 # 2)); reflexivity.
Qed.



(** ** [getNormalizedStep] *)



(** ** [getNormalizedLimit] *)

Section ScaledRounding.

Variables (place fixed : num) (p s : Q).
Hypothesis Hplace : place ~~ p.
Hypothesis Hfixed : fixed ~~ s * p.
Hypothesis Hp : 0 < p.
Hypothesis Hs : 0 < s.






End ScaledRounding.



(** ** [getNormalizedStepCount] *)


(** ** Bounds of the two roundings *)




(** ** [getRoughScale] *)





(** ** Nice steps *)





(** ** The whole calculation on a valid request *)



(** * The claims *)

(** ** C1: scenario A *)

(** C1, as the specification states it: for [min = 0], [max = 155],
    [offsetSize = 264] the result has [step = 20] and
    [limit = {min: 0, max: 160}].  The calculator does not return that. *)
Lemma C1_scenarioA_counterexample :
  ~ (js_eq (Scale.step (coordinateScaleCalculator (request 0 155 264)))
           (Fin 20) = true /\
     js_eq (Limit.min (Scale.limit (coordinateScaleCalculator (request 0 155 264))))
           (Fin 0) = true /\
     js_eq (Limit.max (Scale.limit (coordinateScaleCalculator (request 0 155 264))))
           (Fin 160) = true).
Proof.
  intros [H _]. vm_compute in H. discriminate.
Qed.

(** C1, amended: for [min = 0], [max = 155], [offsetSize = 264] the default
    step count is [ceil(264 / 88) = 3], the rough step is [155 / 3], and the
    result has [step = 50], [limit = {min: 0, max: 200}] and
    [stepCount = 4]. *)
Theorem C1_scenarioA :
  js_eq (Scale.stepCount (getRoughScale (Fin 0) (Fin 155) (Fin 264) None None))
        (Fin 3) = true /\
  js_eq (Scale.step (getRoughScale (Fin 0) (Fin 155) (Fin 264) None None))
        (Fin (155 # 3)) = true /\
  js_eq (Scale.step (coordinateScaleCalculator (request 0 155 264)))
        (Fin 50) = true /\
  js_eq (Limit.min (Scale.limit (coordinateScaleCalculator (request 0 155 264))))
        (Fin 0) = true /\
  js_eq (Limit.max (Scale.limit (coordinateScaleCalculator (request 0 155 264))))
        (Fin 200) = true /\
  js_eq (Scale.stepCount (coordinateScaleCalculator (request 0 155 264)))
        (Fin 4) = true.
Proof.
  repeat split; vm_compute; reflexivity.
Qed.

(** ** C2: containment *)



(** The one option [validRequest] excludes: with
    [minimumStepSize = Infinity] the step becomes [Infinity] and
    [limit.max] NaN, so no bound compares with the input. *)
Remark infinite_minimumStepSize_breaks_containment :
  js_eq (Scale.step (coordinateScaleCalculator
                       (Options.mk (Fin 0) (Fin 10) (Fin 264) None (Some PInf))))
        PInf = true /\
  js_ge (Limit.max (Scale.limit (coordinateScaleCalculator
                       (Options.mk (Fin 0) (Fin 10) (Fin 264) None (Some PInf)))))
        (Fin 10) = false.
Proof.
  split; vm_compute; reflexivity.
Qed.

(** ** C3: the order of magnitude of zero *)

(** C3, as the specification states it: [getDigits(0)] is [1].  It is not. *)
Lemma C3_getDigits_zero_counterexample :
  ~ js_eq (getDigits (Fin 0)) (Fin 1) = true.
Proof.
  vm_compute. discriminate.
Qed.

(** C3, amended: [getDigits(0)] is [10]; the guard for zero puts [1] in the
    place of the logarithm, not of the result, and [Math.pow(10, 1)] is 10.
    The same holds for [-0]. *)
Theorem C3_getDigits_zero :
  js_eq (getDigits (Fin 0)) (Fin 10) = true /\
  js_eq (getDigits NegZero) (Fin 10) = true.
Proof.
  split; vm_compute; reflexivity.
Qed.

(** ** C4: step niceness *)



(** ** C5: the three-case policy for the lower bound *)



(** ** C6: precondition violations *)

(** C6, as the specification states it: a request with a non-positive
    [offsetSize] makes the call fail with an error.  With [offsetSize = 0]
    the call returns a scale; nothing is raised. *)
Lemma C6_fail_fast_counterexample :
  js_le (Options.offsetSize (request 0 10 0)) (Fin 0) = true /\
  ~ (exists message : string,
        call_coordinateScaleCalculator (request 0 10 0) = Throw message).
Proof.
  split; [reflexivity |].
  intros [message H]. discriminate.
Qed.

(** Neither do [min > max] and a non-finite [max] raise. *)
Remark inverted_and_infinite_requests_return :
  (js_gt (Options.min (request 100 0 264)) (Options.max (request 100 0 264))
   = true /\
   ~ (exists message : string,
         call_coordinateScaleCalculator (request 100 0 264) = Throw message)) /\
  (isFinite PInf = false /\
   ~ (exists message : string,
         call_coordinateScaleCalculator
           (Options.mk (Fin 0) PInf (Fin 264) None None) = Throw message)).
Proof.
  split; (split; [reflexivity | intros [message H]; discriminate]).
Qed.

(** C6, amended: the calculator validates nothing; every call, also one
    with a non-positive [offsetSize], with [min > max] or with non-finite
    values, completes normally with a scale.  With [offsetSize = 0] the
    returned [step], [stepCount] and [limit.max] are NaN; with [min = 100],
    [max = 0] the returned limit is the inverted [{min: 100, max: 0}]; with
    [max = Infinity] the returned [step] is [Infinity]. *)
Theorem C6_no_validation :
  (forall o : Options.t,
      call_coordinateScaleCalculator o = Normal (coordinateScaleCalculator o)) /\
  (isNaN (Scale.step (coordinateScaleCalculator (request 0 10 0))) = true /\
   isNaN (Scale.stepCount (coordinateScaleCalculator (request 0 10 0))) = true /\
   isNaN (Limit.max (Scale.limit (coordinateScaleCalculator (request 0 10 0))))
   = true) /\
  (js_eq (Limit.min (Scale.limit (coordinateScaleCalculator (request 100 0 264))))
         (Fin 100) = true /\
   js_eq (Limit.max (Scale.limit (coordinateScaleCalculator (request 100 0 264))))
         (Fin 0) = true) /\
  js_eq (Scale.step (coordinateScaleCalculator
                       (Options.mk (Fin 0) PInf (Fin 264) None None)))
        PInf = true.
Proof.
  split; [intro o; reflexivity |].
  repeat split; vm_compute; reflexivity.
Qed.

(** ** C7: step-count consistency *)



(** ** C9: the snap selector *)

Lemma snap_above (v : num) (c d : Q) :
  d <= c -> js_gt v (Fin c) = true -> js_le v (Fin d) = false.
Proof.
  intros L G. unfold js_gt in G.
  destruct v as [q | | | |]; simpl in *; try discriminate; try reflexivity.
  - apply Qlt_bool_iff in G. apply Qle_bool_false. lra.
  - apply Qlt_bool_iff in G. apply Qle_bool_false. lra.
Qed.

(** C9: [getSnappedNumber] is total and returns an element of
    [1, 2, 5, 10] for every number (NaN and the infinities included): the
    first reference value whose midpoint with its successor (3/2, 7/2, 15/2)
    is not below the input, and 10 when there is none.  The read one past
    the end of [SNAP_VALUES] is [undefined] and falls back to the last
    value, so the last midpoint is 10 itself; every input above 15/2 gives
    10 and every input up to 3/2 (zero and the negative numbers included)
    gives 1. *)
Theorem C9_snap_selector (v : num) :
  In (getSnappedNumber v) SNAP_VALUES /\
  getSnappedNumber v =
    (if js_le v (Fin (3 # 2)) then Fin 1
     else if js_le v (Fin (7 # 2)) then Fin 2
     else if js_le v (Fin (15 # 2)) then Fin 5
     else Fin 10) /\
  (js_le v (Fin (3 # 2)) = true -> getSnappedNumber v = Fin 1) /\
  (js_gt v (Fin (15 # 2)) = true -> getSnappedNumber v = Fin 10) /\
  (nth_error SNAP_VALUES (List.length SNAP_VALUES) = None /\
   js_or (nth_error SNAP_VALUES (3 + 1)) (Fin 10) = Fin 10 /\
   js_eq (js_div (js_add (Fin 10) (js_or (nth_error SNAP_VALUES (3 + 1)) (Fin 10)))
                 (Fin 2))
         (Fin 10) = true) /\
  (js_eq (js_div (js_add (Fin 1) (Fin 2)) (Fin 2)) (Fin (3 # 2)) = true /\
   js_eq (js_div (js_add (Fin 2) (Fin 5)) (Fin 2)) (Fin (7 # 2)) = true /\
   js_eq (js_div (js_add (Fin 5) (Fin 10)) (Fin 2)) (Fin (15 # 2)) = true) /\
  (getSnappedNumber (Fin 0) = Fin 1 /\ getSnappedNumber (Fin (-3)) = Fin 1 /\
   getSnappedNumber (Fin 11) = Fin 10 /\ getSnappedNumber NaN = Fin 10).
Proof.
  pose proof (getSnappedNumber_unfold v) as U.
  split; [| split; [exact U | split; [| split]]].
  - rewrite U. unfold SNAP_VALUES.
    destruct (js_le v (Fin (3 # 2))); [simpl; tauto |].
    destruct (js_le v (Fin (7 # 2))); [simpl; tauto |].
    destruct (js_le v (Fin (15 # 2))); simpl; tauto.
  - intro H. now rewrite U, H.
  - intro H. rewrite U.
    rewrite (snap_above v (15 # 2) (3 # 2)) by (discriminate || exact H).
    rewrite (snap_above v (15 # 2) (7 # 2)) by (discriminate || exact H).
    rewrite (snap_above v (15 # 2) (15 # 2)) by (discriminate || exact H).
    reflexivity.
  - repeat split; vm_compute; reflexivity.
Qed.

(** ** C10: the degenerate range *)



(** ** C8: re-normalization *)
















(** * Further properties of the calculator *)

(** ** The snap selector: order and distance *)

Ltac snap_split :=
  unfold snapQ;
  repeat match goal with
         | |- context [Qle_bool ?u ?c] =>
             let E := fresh "E" in
             destruct (Qle_bool u c) eqn:E;
             [apply Qle_bool_iff in E | apply Qle_bool_false in E]
         end.

Lemma snapQ_mono (x y : Q) : x <= y -> snapQ x <= snapQ y.
Proof.
  intro L. snap_split; try lra; discriminate.
Qed.

Lemma snapQ_nearest (y r : Q) :
  r = 1 \/ r = 2 \/ r = 5 \/ r = 10 ->
  Qabs (snapQ y - y) <= Qabs (r - y).
Proof.
  intros [-> | [-> | [-> | ->]]]; snap_split;
    repeat (apply Qabs_case; intro); lra.
Qed.


Lemma snapQ_le_10 (y : Q) : snapQ y <= 10.
Proof. snap_split; lra || discriminate. Qed.

Lemma snapQ_ge_1 (y : Q) : 1 <= snapQ y.
Proof. snap_split; lra || discriminate. Qed.

(** X1.  [getSnappedNumber] is monotone: a larger input never snaps to a
    smaller reference value.  It holds for the infinities too; NaN compares
    with nothing. *)
Theorem getSnappedNumber_monotone (v w : num) :
  js_le v w = true ->
  js_le (getSnappedNumber v) (getSnappedNumber w) = true.
Proof.
  intro L.
  destruct v as [p | | | |], w as [q | | | |]; simpl in L;
    try discriminate;
    try (vm_compute; reflexivity);
    repeat match goal with
      | |- context [getSnappedNumber (Fin ?u)] =>
          rewrite (getSnappedNumber_repr (Fin u) u (repr_Fin u))
      end.
  - apply Qle_bool_iff in L.
    apply (repr_le _ _ _ _ (repr_Fin _) (repr_Fin _)). now apply snapQ_mono.
  - apply Qle_bool_iff in L. change (getSnappedNumber NegZero) with (Fin 1).
    change (Fin 1) with (Fin (snapQ 0)).
    apply (repr_le _ _ _ _ (repr_Fin _) (repr_Fin _)). now apply snapQ_mono.
  - change (getSnappedNumber PInf) with (Fin 10).
    apply (repr_le _ _ _ _ (repr_Fin _) (repr_Fin _)). apply snapQ_le_10.
  - apply Qle_bool_iff in L. change (getSnappedNumber NegZero) with (Fin 1).
    change (Fin 1) with (Fin (snapQ 0)).
    apply (repr_le _ _ _ _ (repr_Fin _) (repr_Fin _)). now apply snapQ_mono.
  - change (getSnappedNumber NInf) with (Fin 1).
    apply (repr_le _ _ _ _ (repr_Fin _) (repr_Fin _)). apply snapQ_ge_1.
Qed.

Lemma getSnappedNumber_monotone_witness :
  js_le (Fin (7 # 2)) (Fin (36 # 10)) = true /\
  js_le (getSnappedNumber (Fin (7 # 2))) (getSnappedNumber (Fin (36 # 10)))
  = true.
Proof.
  split; [reflexivity |].
  apply (getSnappedNumber_monotone (Fin (7 # 2)) (Fin (36 # 10))).
  reflexivity.
Defined.

(** X2.  [getSnappedNumber] returns a reference value closest to its
    input: no element of [SNAP_VALUES] is nearer to a finite input than the
    one returned. *)
Theorem getSnappedNumber_nearest (v r : num) (y : Q) :
  v ~~ y -> In r SNAP_VALUES ->
  js_le (Math_abs (js_sub (getSnappedNumber v) v))
        (Math_abs (js_sub r v)) = true.
Proof.
  intros Hv Hr.
  rewrite (getSnappedNumber_repr v y Hv).
  assert (R : exists q : Q, r = Fin q /\ (q = 1 \/ q = 2 \/ q = 5 \/ q = 10)).
  { unfold SNAP_VALUES in Hr. simpl in Hr.
    destruct Hr as [<- | [<- | [<- | [<- | []]]]]; eexists; split;
      try reflexivity; tauto. }
  destruct R as (q & -> & Hq).
  apply (repr_le _ _ _ _
           (repr_abs _ _ (repr_sub _ _ _ _ (repr_Fin _) Hv))
           (repr_abs _ _ (repr_sub _ _ _ _ (repr_Fin _) Hv))).
  now apply snapQ_nearest.
Qed.

Lemma getSnappedNumber_nearest_witness :
  (Fin (36 # 10) ~~ 36 # 10 /\ In (Fin 2) SNAP_VALUES) /\
  js_le (Math_abs (js_sub (getSnappedNumber (Fin (36 # 10))) (Fin (36 # 10))))
        (Math_abs (js_sub (Fin 2) (Fin (36 # 10)))) = true.
Proof.
  assert (I : In (Fin 2) SNAP_VALUES) by (right; left; reflexivity).
  split.
  - split; [apply repr_Fin | exact I].
  - apply (getSnappedNumber_nearest (Fin (36 # 10)) (Fin 2) (36 # 10)
             (repr_Fin _) I).
Defined.

(** ** [getDigits] and [getNormalizedStep]: decades, bounds, order *)


Lemma Qabs_nonzero_pos (x : Q) : ~ x == 0 -> 0 < Qabs x.
Proof.
  intro N. apply Qabs_case; intro L.
  - destruct (Qeq_dec x 0) as [E | E]; [contradiction | lra].
  - destruct (Qeq_dec x 0) as [E | E]; [contradiction | lra].
Qed.

Lemma decade_exists (x : Q) :
  ~ x == 0 -> exists k : Z, 10 ^ k <= Qabs x < 10 ^ (k + 1).
Proof.
  intro N. exists (Qfloor_log10 (Qabs x)).
  apply Qfloor_log10_spec. now apply Qabs_nonzero_pos.
Qed.













(** ** [getNormalizedLimit]: grid, tightness and signs *)













(** ** Negative zero *)







(** ** The result of a valid request: tick count *)





(** ** [getRoughScale] with the default step count *)




(** ** [minimumStepSize] *)





(** The returned step can indeed be smaller than [minimumStepSize]: with
    [min = 0], [max = 1], [offsetSize = 264] and [minimumStepSize = 1.4] the
    rough step is 1.4 and the returned step is 1. *)
Remark returned_step_below_minimumStepSize :
  js_eq (Scale.step (getRoughScale (Fin 0) (Fin 1) (Fin 264) None
                                   (Some (Fin (14 # 10)))))
        (Fin (14 # 10)) = true /\
  js_eq (Scale.step (coordinateScaleCalculator
           (Options.mk (Fin 0) (Fin 1) (Fin 264) None (Some (Fin (14 # 10))))))
        (Fin 1) = true.
Proof.
  split; vm_compute; reflexivity.
Qed.

(** ** The number of ticks against the pixel budget *)




(** ** Changing the unit by a power of ten *)









(** ** A step-count hint *)





(** ** [getNormalizedStepCount] and a zero step *)


